(** * Shallow embedding of the toolbox value providers and the storage facade

    Sources: [time_format_test.go] (package [toolbox]: value provider
    registry and built-in providers) and [storage/service.go] (package
    [storage]: scheme-keyed storage facade). *)

From Stdlib Require Import ZArith Lia Ascii String.
From stdpp Require Import base gmap strings list fin_maps pretty.
Open Scope Z_scope.

(* ===================================================================== *)
(** ** Go integers and time values *)

(** Go [int] / [int64] / [time.Duration]: 64-bit two's complement, with the
    wrap-around of [+] and [*] written out. *)
Definition wrap64 (z : Z) : Z := ((z + 2^63) mod 2^64) - 2^63.

(** Go integer division truncates towards zero: [Z.quot]. *)
Definition go_div (a b : Z) : Z := Z.quot a b.

(** A [time.Time], seen through its Unix seconds and its nanosecond field
    (always in [0, 1e9)). *)
Record time := mkTime { t_sec : Z; t_nsec : Z }.

(** The zero [time.Time]: January 1, year 1, 00:00:00 UTC. *)
Definition zero_time : time := mkTime (-62135596800) 0.

(** [t.Unix()] *)
Definition Unix (t : time) : Z := t_sec t.

(** [t.UnixNano()]: seconds times 1e9 plus nanoseconds, in an int64. *)
Definition UnixNano (t : time) : Z := wrap64 (t_sec t * 1000000000 + t_nsec t).

(** [t.Add(d)]: [d] is a Duration in nanoseconds. *)
Definition time_Add (t : time) (d : Z) : time :=
  let dsec := Z.quot d 1000000000 in
  let nsec := t_nsec t + Z.rem d 1000000000 in
  if 1000000000 <=? nsec then mkTime (t_sec t + dsec + 1) (nsec - 1000000000)
  else if nsec <? 0 then mkTime (t_sec t + dsec - 1) (nsec + 1000000000)
  else mkTime (t_sec t + dsec) nsec.

Definition Nanosecond : Z := 1.
Definition Second : Z := 1000000000.
Definition Minute : Z := 60 * Second.
Definition Hour : Z := 60 * Minute.

(** [strings.ToLower]: ASCII letters are folded; the only non-ASCII
    upper-case rune whose lower case is an ASCII letter is the Kelvin sign
    U+212A (UTF-8 E2 84 AA), which becomes ["k"]. Other bytes are kept. *)
Definition lower_ascii (c : ascii) : ascii :=
  let n := Ascii.nat_of_ascii c in
  if (Nat.leb 65 n && Nat.leb n 90)%bool then Ascii.ascii_of_nat (n + 32)%nat else c.

Definition is_kelvin (c1 c2 c3 : ascii) : bool :=
  (Ascii.eqb c1 (Ascii.ascii_of_nat 226) && Ascii.eqb c2 (Ascii.ascii_of_nat 132)
   && Ascii.eqb c3 (Ascii.ascii_of_nat 170))%bool.

Fixpoint ToLower (s : string) : string :=
  match s with
  | EmptyString => EmptyString
  | String c1 rest1 =>
      match rest1 with
      | String c2 (String c3 rest3) =>
          if is_kelvin c1 c2 c3 then String "k"%char (ToLower rest3)
          else String (lower_ascii c1) (ToLower rest1)
      | _ => String (lower_ascii c1) (ToLower rest1)
      end
  end.

Example ToLower_now : ToLower "NoW" = "now".
Proof. reflexivity. Qed.

(* ===================================================================== *)
(** ** Go dynamic values and provider results *)

(** The [interface{}] values the providers receive and return. A
    [float64] is carried as its IEEE-754 bit pattern (it is never
    inspected here); [VFormatted t p] is the text [t.Format(layout)] with
    the layout that [DateFormatToLayout p] yields. *)
Inductive value :=
  | VNil
  | VString (s : string)
  | VInt (z : Z)
  | VFloat (bits : Z)
  | VBool (b : bool)
  | VTime (t : time)
  | VFormatted (t : time) (pattern : string).

(** [(interface{}, error)] as returned by [ValueProvider.Get], or a Go
    run-time panic. An error is represented by its message. *)
Inductive gores :=
  | GoRet (v : value) (err : option string)
  | GoPanic (msg : string).

(** The toolbox conversion helpers ([AsString], [AsInt], [AsFloat],
    [AsBoolean], [AsTime], [ParseTime]) live outside these sources: the providers are
    embedded for every choice of them. *)
Section Providers.
Variable AsString : value -> string.
Variable AsInt : value -> Z.
Variable AsFloat : value -> Z.
Variable AsBoolean : value -> bool.
Variable AsTime : value -> string -> option time.
(** [ParseTime(input, pattern)]: the parsed time or the parse error. *)
Variable ParseTime : string -> string -> time + string.

(** [castedValueProvider.Get]. [arguments[0].(string)] panics when there
    is no argument or when it is not a string. *)
Definition castedValueProvider_Get (arguments : list value) : gores :=
  match arguments with
  | [] => GoPanic "index out of range [0] with length 0"
  | a0 :: rest =>
      match a0 with
      | VString key =>
          if (length arguments <? 2)%nat then
            GoRet VNil (Some ("failed to cast to " ++ key
              ++ " due to invalid number of arguments, Wanted 2 but had:"
              ++ pretty (length arguments))%string)
          else
            match rest with
            | [] => GoPanic "unreachable"
            | a1 :: rest' =>
                if String.eqb key "time" then
                  match rest' with
                  | [a2] =>
                      match ParseTime (AsString a1) (AsString a2) with
                      | inl t => GoRet (VTime t) None
                      | inr e => GoRet VNil (Some ("failed to cast to time " ++ AsString a1
                                                   ++ " due to " ++ e)%string)
                      end
                  | _ => GoRet VNil (Some ("failed to cast to time due to invalid number of arguments expected 2, but had "
                           ++ pretty (length arguments - 1)%nat)%string)
                  end
                else if String.eqb key "int" then GoRet (VInt (AsInt a1)) None
                else if String.eqb key "float" then GoRet (VFloat (AsFloat a1)) None
                else if String.eqb key "bool" then GoRet (VBool (AsBoolean a1)) None
                else if String.eqb key "string" then GoRet (VString (AsString a1)) None
                else GoRet VNil (Some ("failed to cast to " ++ key ++ " - unsupported type")%string)
            end
      | _ => GoPanic "interface conversion: interface {} is not string"
      end
  end.

(** [timeDiffProvider.Get]; [now] is the value [time.Now()] returns. *)
Definition timeDiffProvider_Get (now : time) (arguments : list value) : gores :=
  let resultTime :=
    match arguments with
    | a0 :: _ =>
        if String.eqb (ToLower (AsString a0)) "now" then now
        else match AsTime a0 "" with Some t => t | None => zero_time end
    | [] => zero_time
    end in
  let durationDelta :=
    match arguments with
    | _ :: a1 :: a2 :: _ =>
        let amount := AsInt a1 in
        let unit := ToLower (AsString a2) in
        if String.eqb unit "day" then wrap64 (wrap64 (amount * 24) * Hour)
        else if String.eqb unit "week" then wrap64 (wrap64 (wrap64 (amount * 24) * 7) * Hour)
        else if String.eqb unit "hour" then wrap64 (amount * Hour)
        else if String.eqb unit "min" then wrap64 (amount * Minute)
        else if String.eqb unit "sec" then wrap64 (amount * Second)
        else 0
    | _ => 0
    end in
  let format :=
    match arguments with
    | [_; _; _; a3] => AsString a3
    | _ => ""%string
    end in
  let resultTime := time_Add resultTime durationDelta in
  if String.eqb format "unix" then
    GoRet (VInt (go_div (wrap64 (Unix resultTime + UnixNano resultTime)) 1000000000)) None
  else if String.eqb format "timestamp" then
    GoRet (VInt (go_div (wrap64 (Unix resultTime + UnixNano resultTime)) 1000000)) None
  else if (0 <? String.length format)%nat then GoRet (VFormatted resultTime format) None
  else GoRet (VTime resultTime) None.

(** The [Dictionary] interface. [Get] returns the value or an error. *)
Record Dictionary := mkDictionary {
  Dictionary_Get : string -> value * option string;
  Dictionary_Exists : string -> bool
}.

(** [MapDictionary]: a Go [map[string]interface{}]. *)
Definition MapDictionary (d : gmap string value) : Dictionary := {|
  Dictionary_Get := fun name =>
    match d !! name with
    | Some result => (result, None)
    | None => (VNil, Some ("failed to lookup: " ++ name)%string)
    end;
  Dictionary_Exists := fun name => bool_decide (is_Some (d !! name))
|}.

(** The part of a [Context] the dictionary provider reads: the value
    stored under a context key, as [context.GetInto] finds it. When no
    dictionary is stored, [dictionary] stays a nil interface and the
    method call on it panics. *)
Definition Context := gmap string Dictionary.

(** [dictionaryProvider.Get] for a provider built with
    [NewDictionaryProvider(dictionaryContentKey)]. *)
Definition dictionaryProvider_Get (dictionaryContentKey : string)
    (context : Context) (arguments : list value) : gores :=
  match arguments with
  | [] => GoRet VNil (Some "Expected at least one argument but had 0")
  | a0 :: _ =>
      let key := AsString a0 in
      match context !! dictionaryContentKey with
      | None => GoPanic "invalid memory address or nil pointer dereference"
      | Some dictionary =>
          if ((length arguments =? 1)%nat && negb (Dictionary_Exists dictionary key))%bool
          then GoRet VNil None
          else let '(v, e) := Dictionary_Get dictionary key in GoRet v e
      end
  end.

End Providers.

(* ===================================================================== *)
(** ** [valueProviderRegistryImpl] *)

Module ValueProviderRegistry.
Section Registry.
Variable ValueProvider : Type.

(** [registry map[string]ValueProvider]; the receiver is a value but the
    map is shared, so every method sees the same map. *)
Definition registry := gmap string ValueProvider.

(** Outcome of [Get]: the provider, or a panic with its message. *)
Inductive get_result :=
  | Found (p : ValueProvider)
  | Panicked (msg : string).

Definition Register (name : string) (valueProvider : ValueProvider)
    (r : gmap string ValueProvider) : gmap string ValueProvider :=
  <[name := valueProvider]> r.

Definition Contains (name : string) (r : gmap string ValueProvider) : bool :=
  bool_decide (is_Some (r !! name)).

Definition Get (name : string) (r : gmap string ValueProvider) : get_result :=
  match r !! name with
  | Some result => Found result
  | None => Panicked ("failed to lookup name: " ++ name)%string
  end.

(** A sequence of [Register] calls, applied left to right. *)
Definition RegisterAll (regs : list (string * ValueProvider))
    (r : gmap string ValueProvider) : gmap string ValueProvider :=
  foldl (fun acc '(n, p) => Register n p acc) r regs.

End Registry.
Arguments Found {ValueProvider} p.
Arguments Panicked {ValueProvider} msg.
End ValueProviderRegistry.

(* ===================================================================== *)
(** ** [storageService] *)

Module Storage.
Section Facade.
(** Storage objects, readers and registered backends are opaque here. *)
Variable Object Reader Backend : Type.
(** [object.URL()] *)
Variable Object_URL : Object -> string.
(** [url.Parse(URL)], reduced to what the facade reads: the parse error or
    the parsed [Scheme]. *)
Variable url_Parse_Scheme : string -> string + string.

(** A call of the [Service] interface, with its arguments. *)
Inductive op :=
  | List (URL : string)
  | Exists (URL : string)
  | StorageObject (URL : string)
  | Download (object : Object)
  | Upload (URL : string) (reader : Reader)
  | Delete (object : Object).

(** The Go results of these calls: value and error. *)
Inductive res :=
  | RList (objects : list Object) (err : option string)
  | RExists (b : bool) (err : option string)
  | RObject (object : option Object) (err : option string)
  | RReader (reader : option Reader) (err : option string)
  | RErr (err : option string).

(** What a backend answers to each call, and to [Close]. *)
Variable backend_call : Backend -> op -> res.
Variable backend_Close : Backend -> option string.

Definition registry := gmap string Backend.

Definition getServiceForSchema (reg : gmap string Backend) (URL : string) : string + Backend :=
  match url_Parse_Scheme URL with
  | inl err => inl err
  | inr scheme =>
      match reg !! scheme with
      | Some result => inr result
      | None => inl ("failed to lookup url schema " ++ scheme ++ " in " ++ URL)%string
      end
  end.

(** The URL a call is routed by. *)
Definition op_URL (o : op) : string :=
  match o with
  | List URL | Exists URL | StorageObject URL | Upload URL _ => URL
  | Download object | Delete object => Object_URL object
  end.

(** What the facade returns when the lookup fails. *)
Definition lookup_failure (o : op) (err : string) : res :=
  match o with
  | List _ => RList [] (Some err)
  | Exists _ => RExists false (Some err)
  | StorageObject _ => RObject None (Some err)
  | Download _ => RReader None (Some err)
  | Upload _ _ | Delete _ => RErr (Some err)
  end.

(** [List], [Exists], [StorageObject], [Download], [Upload], [Delete] of
    the facade: the result, and the backend calls made (in order). *)
Definition storageService_call (reg : gmap string Backend) (o : op)
    : res * list (Backend * op) :=
  match getServiceForSchema reg (op_URL o) with
  | inl err => (lookup_failure o err, [])
  | inr service => (backend_call service o, [(service, o)])
  end.

(** [Register]: always returns nil. *)
Definition storageService_Register (schema : string) (service : Backend)
    (reg : gmap string Backend) : gmap string Backend * option string :=
  (<[schema := service]> reg, None).

(** The [for _, service := range s.registry] loop of [Close], over the
    entries in the order the range visits them: the error returned and the
    schemes whose backend had [Close] called. *)
Fixpoint close_loop (entries : list (string * Backend)) : option string * list string :=
  match entries with
  | [] => (None, [])
  | (schema, service) :: rest =>
      match backend_Close service with
      | Some err => (Some err, [schema])
      | None => let '(r, closed) := close_loop rest in (r, schema :: closed)
      end
  end.

(** [Close]: Go visits the map entries in an unspecified order, each one
    once; [order] is that visiting order, a permutation of the entries of
    [reg]. *)
Definition storageService_Close (reg : gmap string Backend)
    (order : list (string * Backend)) : option string * list string :=
  close_loop order.

End Facade.
End Storage.


(** [NewService] and [NewServiceForURL] of the storage package. *)
Module StorageCtor.
Section Ctor.
Variable Backend : Type.
Variable url_Parse_Scheme : string -> string + string.
(** [&fileStorageService{}] and [NewMemoryService()]. *)
Variable fileStorageService memoryService : Backend.
(** [NewStorageProvider().Get(scheme)]: the backend factory registered for
    a scheme, if any; a factory maps a credential file to a backend or an
    error. *)
Variable provider_for : string -> option (string -> Backend + string).

Definition NewService : gmap string Backend :=
  let '(r1, _) := Storage.storageService_Register Backend "file" fileStorageService ∅ in
  let '(r2, _) := Storage.storageService_Register Backend "mem" memoryService r1 in
  r2.

(** The new service's registry, or the error returned. *)
Definition NewServiceForURL (URL credentialFile : string) : string + gmap string Backend :=
  match url_Parse_Scheme URL with
  | inl err => inl err
  | inr scheme =>
      let service := NewService in
      match provider_for scheme with
      | Some provider =>
          match provider credentialFile with
          | inr err => inl ("failed to get storage for url " ++ URL ++ ": " ++ err)%string
          | inl serviceForScheme =>
              let '(reg, err) := Storage.storageService_Register Backend scheme serviceForScheme service in
              match err with
              | Some e => inl e
              | None => inr reg
              end
          end
      | None =>
          if negb (String.eqb scheme "file") then inl ("unsupported scheme " ++ URL)%string
          else inr service
      end
  end.
End Ctor.
End StorageCtor.

(* ===================================================================== *)
(** ** Concrete instances used to run the models *)

Module Sample.
(** Conversion helpers that are exact on the argument kinds they are given
    below (strings and ints). *)
Definition AsString (v : value) : string :=
  match v with VString s => s | _ => EmptyString end.
Definition AsInt (v : value) : Z := match v with VInt z => z | _ => 0 end.
Definition AsFloat (v : value) : Z := 0.
Definition AsBoolean (v : value) : bool := match v with VBool b => b | _ => false end.
Definition AsTime (v : value) (layout : string) : option time :=
  match v with VTime t => Some t | _ => None end.
Definition ParseTime (input pattern : string) : time + string := inr "unparsed"%string.

Definition is_alpha (c : ascii) : bool :=
  let n := Ascii.nat_of_ascii c in
  ((Nat.leb 97 n && Nat.leb n 122) || (Nat.leb 65 n && Nat.leb n 90))%bool.
Definition is_scheme_rest (c : ascii) : bool :=
  let n := Ascii.nat_of_ascii c in
  ((Nat.leb 48 n && Nat.leb n 57) || Ascii.eqb c "+" || Ascii.eqb c "-" || Ascii.eqb c ".")%bool.

(** Go's [net/url] [getScheme] followed by [strings.ToLower]; the other
    checks of [url.Parse] are not modelled. [i] is the index reached. *)
Fixpoint getScheme_from (i : nat) (acc : string) (s : string) : string + string :=
  match s with
  | EmptyString => inr EmptyString
  | String c rest =>
      if is_alpha c then getScheme_from (S i) (acc ++ String c EmptyString) rest
      else if is_scheme_rest c then
        (if (i =? 0)%nat then inr EmptyString
         else getScheme_from (S i) (acc ++ String c EmptyString) rest)
      else if Ascii.eqb c ":" then
        (if (i =? 0)%nat then inl "missing protocol scheme"%string else inr (ToLower acc))
      else inr EmptyString
  end.

Definition url_Parse_Scheme (URL : string) : string + string := getScheme_from 0 EmptyString URL.

Example url_Parse_Scheme_mem : url_Parse_Scheme "MEM://bucket/x" = inr "mem"%string.
Proof. reflexivity. Qed.
Example url_Parse_Scheme_path : url_Parse_Scheme "/tmp/a" = inr ""%string.
Proof. reflexivity. Qed.
End Sample.

(* ===================================================================== *)
(** * Theorems *)

(** The instant 2017-11-04 22:29:33 UTC. *)
Definition t_2017_11_04 : time := mkTime 1509834573 0.

Section TimeDiff.
Variable AsString : value -> string.
Variable AsInt : value -> Z.
Variable AsTime : value -> string -> option time.
Hypothesis AsString_string : forall s, AsString (VString s) = s.
Hypothesis AsInt_int : forall z, AsInt (VInt z) = z.

(** The "unix" and "timestamp" outputs are computed from
    [Unix() + UnixNano()], not from [UnixNano()] alone. *)
Lemma timeDiff_format_result (now : time) (amount : Z) (unit fmt : string) :
  let t := time_Add now (let u := ToLower unit in
    if String.eqb u "day" then wrap64 (wrap64 (amount * 24) * Hour)
    else if String.eqb u "week" then wrap64 (wrap64 (wrap64 (amount * 24) * 7) * Hour)
    else if String.eqb u "hour" then wrap64 (amount * Hour)
    else if String.eqb u "min" then wrap64 (amount * Minute)
    else if String.eqb u "sec" then wrap64 (amount * Second) else 0) in
  timeDiffProvider_Get AsString AsInt AsTime now
    [VString "now"; VInt amount; VString unit; VString fmt] =
  if String.eqb fmt "unix" then
    GoRet (VInt (go_div (wrap64 (Unix t + UnixNano t)) 1000000000)) None
  else if String.eqb fmt "timestamp" then
    GoRet (VInt (go_div (wrap64 (Unix t + UnixNano t)) 1000000)) None
  else if (0 <? String.length fmt)%nat then GoRet (VFormatted t fmt) None
  else GoRet (VTime t) None.
Proof.
  unfold timeDiffProvider_Get. rewrite !AsString_string, AsInt_int. reflexivity.
Qed.
End TimeDiff.

(** C1 (code_bug): at the instant 2017-11-04 22:29:33 UTC (Unix seconds
    1509834573), [Get("now", 0, "day", "unix")] returns 1509834574, not the
    Unix seconds of the result time, and [Get("now", 0, "day",
    "timestamp")] returns 1509834574509, not its 1509834573000
    milliseconds: both add [Unix()] to [UnixNano()] before dividing. *)
Theorem timeDiff_unix_timestamp_at_2017
    (AsString : value -> string) (AsInt : value -> Z) (AsTime : value -> string -> option time)
    (HS : forall s, AsString (VString s) = s) (HI : forall z, AsInt (VInt z) = z) :
  let t := time_Add t_2017_11_04 0 in
  Unix t = 1509834573 /\ Unix t * 1000 + t_nsec t / 1000000 = 1509834573000 /\
  timeDiffProvider_Get AsString AsInt AsTime t_2017_11_04
    [VString "now"; VInt 0; VString "day"; VString "unix"] = GoRet (VInt 1509834574) None /\
  timeDiffProvider_Get AsString AsInt AsTime t_2017_11_04
    [VString "now"; VInt 0; VString "day"; VString "timestamp"] = GoRet (VInt 1509834574509) None.
Proof.
  intros t. rewrite !(timeDiff_format_result AsString AsInt AsTime HS HI).
  vm_compute. repeat split.
Qed.

Lemma timeDiff_unix_timestamp_at_2017_witness :
  (forall s, Sample.AsString (VString s) = s) /\ (forall z, Sample.AsInt (VInt z) = z) /\
  timeDiffProvider_Get Sample.AsString Sample.AsInt Sample.AsTime t_2017_11_04
    [VString "now"; VInt 0; VString "day"; VString "unix"] = GoRet (VInt 1509834574) None.
Proof.
  split; [intros s; reflexivity |]. split; [intros z; reflexivity |].
  apply (timeDiff_unix_timestamp_at_2017 Sample.AsString Sample.AsInt Sample.AsTime);
    intros; reflexivity.
Defined.

Section Cast.
Variable AsString : value -> string.
Variable AsInt : value -> Z.
Variable AsFloat : value -> Z.
Variable AsBoolean : value -> bool.
Variable ParseTime : string -> string -> time + string.

(** The conversion the cast provider applies for a non-time target. *)
Definition cast_of (key : string) (v : value) : value :=
  if String.eqb key "int" then VInt (AsInt v)
  else if String.eqb key "float" then VFloat (AsFloat v)
  else if String.eqb key "bool" then VBool (AsBoolean v)
  else VString (AsString v).

Lemma cast_only_type_name (key : string) :
  castedValueProvider_Get AsString AsInt AsFloat AsBoolean ParseTime [VString key] =
  GoRet VNil (Some ("failed to cast to " ++ key
    ++ " due to invalid number of arguments, Wanted 2 but had:1")%string).
Proof. reflexivity. Qed.
End Cast.

(** C2 (counterexample): [Get("int")], with the type name only, returns
    an argument-count error, not the zero value without error. *)
Lemma cast_int_without_value_errors :
  castedValueProvider_Get Sample.AsString Sample.AsInt Sample.AsFloat Sample.AsBoolean
    Sample.ParseTime [VString "int"] =
  GoRet VNil (Some "failed to cast to int due to invalid number of arguments, Wanted 2 but had:1"%string).
Proof. apply cast_only_type_name. Qed.

(** C2 (amended): for a target type [key] among int, float, bool and
    string, [Get] fails with an argument-count error exactly when no value
    argument follows the type name; with a value argument [a1] (further
    arguments are ignored) it never fails and returns [AsInt a1],
    [AsFloat a1], [AsBoolean a1] or [AsString a1], whatever the conversion
    helpers do with invalid input. *)
Theorem cast_non_time_never_fails_with_value
    (AsString : value -> string) (AsInt : value -> Z) (AsFloat : value -> Z)
    (AsBoolean : value -> bool) (ParseTime : string -> string -> time + string)
    (key : string) (Hkey : key ∈ ["int"; "float"; "bool"; "string"]%string) :
  castedValueProvider_Get AsString AsInt AsFloat AsBoolean ParseTime [VString key] =
    GoRet VNil (Some ("failed to cast to " ++ key
      ++ " due to invalid number of arguments, Wanted 2 but had:1")%string) /\
  (forall a1 rest,
    castedValueProvider_Get AsString AsInt AsFloat AsBoolean ParseTime (VString key :: a1 :: rest) =
    GoRet (cast_of AsString AsInt AsFloat AsBoolean key a1) None).
Proof.
  split; [apply cast_only_type_name |].
  intros a1 rest.
  repeat (apply elem_of_cons in Hkey as [-> | Hkey]; [reflexivity |]).
  apply elem_of_nil in Hkey as [].
Qed.

Lemma cast_non_time_never_fails_with_value_witness :
  ("int"%string ∈ ["int"; "float"; "bool"; "string"]%string) /\
  castedValueProvider_Get Sample.AsString Sample.AsInt Sample.AsFloat Sample.AsBoolean
    Sample.ParseTime [VString "int"; VString "abc"] = GoRet (VInt 0) None.
Proof.
  split; [left |].
  apply (cast_non_time_never_fails_with_value Sample.AsString Sample.AsInt Sample.AsFloat
           Sample.AsBoolean Sample.ParseTime "int"); left.
Defined.

(** C5: when the context holds a dictionary under the provider's key and
    the looked-up key is absent from it, a single-argument [Get] returns
    nil without error, and a [Get] with two or more arguments returns
    exactly what the dictionary's [Get] returns for that key (its
    not-found error). *)
Theorem dictionary_soft_miss
    (AsString : value -> string) (contentKey : string) (context : Context)
    (dictionary : Dictionary) (a0 : value)
    (Hctx : context !! contentKey = Some dictionary)
    (Habsent : Dictionary_Exists dictionary (AsString a0) = false) :
  dictionaryProvider_Get AsString contentKey context [a0] = GoRet VNil None /\
  (forall a1 rest,
    dictionaryProvider_Get AsString contentKey context (a0 :: a1 :: rest) =
    GoRet (fst (Dictionary_Get dictionary (AsString a0)))
          (snd (Dictionary_Get dictionary (AsString a0)))).
Proof.
  unfold dictionaryProvider_Get. rewrite Hctx, Habsent. split; [reflexivity |].
  intros a1 rest. simpl. by destruct (Dictionary_Get dictionary (AsString a0)).
Qed.

(** For a [MapDictionary], the propagated error is its not-found error. *)
Lemma MapDictionary_absent (d : gmap string value) (name : string) :
  d !! name = None ->
  Dictionary_Exists (MapDictionary d) name = false /\
  Dictionary_Get (MapDictionary d) name = (VNil, Some ("failed to lookup: " ++ name)%string).
Proof. intros H. simpl. rewrite H. split; reflexivity. Qed.

Lemma dictionary_soft_miss_witness :
  let ctx : Context := {[ "dict"%string := MapDictionary {[ "a"%string := VInt 1 ]} ]} in
  ctx !! "dict"%string = Some (MapDictionary {[ "a"%string := VInt 1 ]}) /\
  Dictionary_Exists (MapDictionary {[ "a"%string := VInt 1 ]}) (Sample.AsString (VString "b")) = false /\
  dictionaryProvider_Get Sample.AsString "dict" ctx [VString "b"] = GoRet VNil None.
Proof.
  intros ctx. split; [reflexivity |]. split; [reflexivity |].
  apply (dictionary_soft_miss Sample.AsString "dict" ctx
           (MapDictionary {[ "a"%string := VInt 1 ]}) (VString "b")); reflexivity.
Defined.

(** C10: with no argument, the dictionary provider returns the error
    "Expected at least one argument but had 0", whatever the context holds
    (even no dictionary at all): no lookup happens. *)
Theorem dictionary_no_argument
    (AsString : value -> string) (contentKey : string) (context : Context) :
  dictionaryProvider_Get AsString contentKey context [] =
  GoRet VNil (Some "Expected at least one argument but had 0"%string).
Proof. reflexivity. Qed.

Section RegistryTheorems.
Import ValueProviderRegistry.

Lemma RegisterAll_other {P} (regs : list (string * P)) (r : gmap string P) (name : string) :
  Forall (fun np => np.1 ≠ name) regs ->
  RegisterAll P regs r !! name = r !! name.
Proof.
  revert r. induction regs as [| [n p] regs IH]; intros r Hall; [reflexivity |].
  apply Forall_cons in Hall as [Hn Hall]. simpl in Hn.
  unfold RegisterAll. simpl. fold (RegisterAll P regs (Register P n p r)).
  rewrite IH by exact Hall. unfold Register. by rewrite lookup_insert_ne.
Qed.

(** C8: [Get] of a name absent from the registry panics (no error value
    is returned); after [Register(name, p)] followed by registrations of
    other names only, [Get(name)] returns [p] and [Contains(name)] is
    true. *)
Theorem registry_get_contract {P} (r : gmap string P) (name : string) (p : P)
    (later : list (string * P)) (Hlater : Forall (fun np => np.1 ≠ name) later) :
  (r !! name = None -> Get P name r = Panicked ("failed to lookup name: " ++ name)%string) /\
  Get P name (RegisterAll P later (Register P name p r)) = Found p /\
  Contains P name (RegisterAll P later (Register P name p r)) = true.
Proof.
  split; [intros H; unfold Get; by rewrite H |].
  unfold Get, Contains. rewrite RegisterAll_other by exact Hlater.
  unfold Register. rewrite lookup_insert_eq. split; [reflexivity |].
  by apply bool_decide_eq_true.
Qed.
End RegistryTheorems.

Lemma registry_get_contract_witness :
  Forall (fun np : string * nat => np.1 ≠ "env"%string) [("cast"%string, 2%nat)] /\
  ValueProviderRegistry.Get nat "env"
    (ValueProviderRegistry.RegisterAll nat [("cast"%string, 2%nat)]
       (ValueProviderRegistry.Register nat "env" 1%nat ∅)) = ValueProviderRegistry.Found 1%nat.
Proof.
  split; [repeat constructor; discriminate |].
  apply (registry_get_contract (∅ : gmap string nat) "env" 1%nat [("cast"%string, 2%nat)]).
  repeat constructor; discriminate.
Defined.

Section StorageTheorems.
Variable Object Reader Backend : Type.
Variable Object_URL : Object -> string.
Variable url_Parse_Scheme : string -> string + string.
Variable backend_call : Backend -> Storage.op Object Reader -> Storage.res Object Reader.
Variable backend_Close : Backend -> option string.

Abbreviation call := (Storage.storageService_call Object Reader Backend Object_URL url_Parse_Scheme backend_call).
Abbreviation URL_of := (Storage.op_URL Object Reader Object_URL).

Lemma storageService_call_found (reg : gmap string Backend) (o : Storage.op Object Reader)
    (scheme : string) (b : Backend) :
  url_Parse_Scheme (URL_of o) = inr scheme -> reg !! scheme = Some b ->
  call reg o = (backend_call b o, [(b, o)]).
Proof.
  intros Hparse H. unfold Storage.storageService_call, Storage.getServiceForSchema.
  by rewrite Hparse, H.
Qed.

(** C6: for every facade operation whose URL parses to [scheme]: with no
    backend registered for [scheme], the operation returns the
    scheme-lookup error and calls no backend; with backend [b] registered
    for it, the operation calls [b] once, with the same operation and
    arguments, and returns exactly [b]'s result. *)
Theorem facade_dispatch (reg : gmap string Backend) (o : Storage.op Object Reader)
    (scheme : string) (Hparse : url_Parse_Scheme (URL_of o) = inr scheme) :
  (reg !! scheme = None ->
     call reg o = (Storage.lookup_failure Object Reader o
                     ("failed to lookup url schema " ++ scheme ++ " in " ++ URL_of o)%string, [])) /\
  (forall b, reg !! scheme = Some b -> call reg o = (backend_call b o, [(b, o)])).
Proof.
  split; [| intros b; by apply storageService_call_found].
  intros H. unfold Storage.storageService_call, Storage.getServiceForSchema.
  by rewrite Hparse, H.
Qed.

(** C9: after [Register(s, b1)] then [Register(s, b2)] the registry holds
    only [b2] for [s] (the rest unchanged), both registrations return nil,
    and every facade operation whose URL parses to scheme [s] goes to
    [b2]. *)
Theorem register_last_wins (reg : gmap string Backend) (s : string) (b1 b2 : Backend)
    (o : Storage.op Object Reader) (Hparse : url_Parse_Scheme (URL_of o) = inr s) :
  let '(reg1, e1) := Storage.storageService_Register Backend s b1 reg in
  let '(reg2, e2) := Storage.storageService_Register Backend s b2 reg1 in
  e1 = None /\ e2 = None /\ reg2 = <[s := b2]> reg /\
  call reg2 o = (backend_call b2 o, [(b2, o)]).
Proof.
  simpl. split; [reflexivity |]. split; [reflexivity |].
  split; [apply insert_insert_eq |].
  apply (storageService_call_found _ o s b2 Hparse). apply lookup_insert_eq.
Qed.
End StorageTheorems.

Section CloseTheorems.
Variable Backend : Type.
Variable backend_Close : Backend -> option string.

Abbreviation close_loop := (Storage.close_loop Backend backend_Close).

Lemma close_loop_prefix (entries : list (string * Backend)) :
  exists rest, (close_loop entries).2 ++ rest = entries.*1.
Proof.
  induction entries as [| [schema service] entries [rest IH]]; [by exists [] |].
  simpl. destruct (backend_Close service).
  - by exists (entries.*1).
  - destruct (close_loop entries) as [r closed] eqn:E. simpl in *.
    exists rest. by rewrite IH.
Qed.

Lemma close_loop_none (entries : list (string * Backend)) :
  (close_loop entries).1 = None <-> Forall (fun sb => backend_Close sb.2 = None) entries.
Proof.
  induction entries as [| [schema service] entries IH]; simpl.
  - split; [constructor | reflexivity].
  - rewrite Forall_cons. simpl. destruct (backend_Close service) as [e |] eqn:E.
    + split; [discriminate | intros [H _]; discriminate].
    + destruct (close_loop entries) as [r closed]. simpl in *. rewrite IH. tauto.
Qed.

Lemma close_loop_none_closed (entries : list (string * Backend)) :
  (close_loop entries).1 = None -> (close_loop entries).2 = entries.*1.
Proof.
  induction entries as [| [schema service] entries IH]; simpl; [done |].
  destruct (backend_Close service); simpl; [discriminate |].
  destruct (close_loop entries) as [r closed]. simpl in *. intros H. by rewrite IH.
Qed.

Lemma close_loop_some (entries : list (string * Backend)) (e : string) :
  (close_loop entries).1 = Some e ->
  exists pre schema b post,
    entries = pre ++ (schema, b) :: post /\
    Forall (fun sb => backend_Close sb.2 = None) pre /\
    backend_Close b = Some e /\
    (close_loop entries).2 = pre.*1 ++ [schema].
Proof.
  induction entries as [| [schema service] entries IH]; simpl; [discriminate |].
  destruct (backend_Close service) as [e' |] eqn:E; simpl.
  - intros [= <-]. exists [], schema, service, entries. by repeat split.
  - destruct (close_loop entries) as [r closed] eqn:Ec. simpl in *. intros Hr.
    destruct (IH Hr) as (pre & sch & b & post & -> & Hpre & Hb & Hc).
    exists ((schema, service) :: pre), sch, b, post.
    split; [done |]. split; [by constructor |]. split; [done |]. simpl. by rewrite Hc.
Qed.

(** C7: [Close], whatever order the map range visits the entries in,
    calls [Close] on registered backends one after the other, at most
    once per registry entry; when it returns an error [e], the backends
    visited before closed successfully, [e] is the first failing backend's
    error and no backend after it was closed; it returns nil exactly when
    the [Close] of every registered backend succeeds, and then all of them
    were closed. *)
Theorem close_first_error (reg : gmap string Backend) (order : list (string * Backend))
    (Horder : order ≡ₚ map_to_list reg) :
  let '(err, closed) := Storage.storageService_Close Backend backend_Close reg order in
  NoDup closed /\
  (forall e, err = Some e ->
     exists pre schema b post,
       order = pre ++ (schema, b) :: post /\
       Forall (fun sb => backend_Close sb.2 = None) pre /\
       backend_Close b = Some e /\
       closed = pre.*1 ++ [schema]) /\
  (err = None <-> (forall schema b, reg !! schema = Some b -> backend_Close b = None)) /\
  (err = None -> closed = order.*1).
Proof.
  unfold Storage.storageService_Close.
  pose proof (close_loop_prefix order) as [rest Hpre].
  pose proof (close_loop_none order) as Hnone.
  pose proof (close_loop_none_closed order) as Hclosed.
  pose proof (close_loop_some order) as Hsome.
  destruct (close_loop order) as [err closed]. simpl in *.
  split.
  { assert (Hnd : NoDup (order.*1)).
    { rewrite Horder. apply NoDup_fst_map_to_list. }
    rewrite <- Hpre in Hnd. by apply NoDup_app in Hnd as [? _]. }
  split; [exact Hsome |]. split; [| exact Hclosed].
  rewrite Hnone, Forall_forall. split.
  - intros H schema b Hb. apply (H (schema, b)). rewrite Horder.
    by apply elem_of_map_to_list.
  - intros H [schema b] Hin. rewrite Horder in Hin.
    apply elem_of_map_to_list in Hin. by apply (H schema).
Qed.
End CloseTheorems.

Module StorageSample.
(** Backends numbered by [nat]; backend 2 fails to close. *)
Definition backend_call (b : nat) (o : Storage.op string unit) : Storage.res string unit :=
  Storage.RExists string unit (Nat.eqb b 1) None.
Definition backend_Close (b : nat) : option string :=
  if Nat.eqb b 2 then Some "close failed"%string else None.
Definition reg0 : gmap string nat := {[ "file"%string := 1%nat; "mem"%string := 2%nat ]}.
End StorageSample.

Lemma facade_dispatch_witness :
  Sample.url_Parse_Scheme "ftp://host/path" = inr "ftp"%string /\
  Storage.storageService_call string unit nat (fun o => o) Sample.url_Parse_Scheme
    StorageSample.backend_call StorageSample.reg0 (Storage.Exists string unit "ftp://host/path") =
  (Storage.RExists string unit false
     (Some "failed to lookup url schema ftp in ftp://host/path"%string), []).
Proof.
  split; [reflexivity |].
  apply (facade_dispatch string unit nat (fun o => o) Sample.url_Parse_Scheme
           StorageSample.backend_call StorageSample.reg0
           (Storage.Exists string unit "ftp://host/path") "ftp"); reflexivity.
Defined.

Lemma register_last_wins_witness :
  Sample.url_Parse_Scheme "mem://bucket/a" = inr "mem"%string /\
  Storage.storageService_call string unit nat (fun o => o) Sample.url_Parse_Scheme
    StorageSample.backend_call
    (<[ "mem"%string := 1%nat ]> (<[ "mem"%string := 2%nat ]> StorageSample.reg0))
    (Storage.List string unit "mem://bucket/a") =
  (StorageSample.backend_call 1 (Storage.List string unit "mem://bucket/a"),
   [(1%nat, Storage.List string unit "mem://bucket/a")]).
Proof.
  split; [reflexivity |].
  pose proof (register_last_wins string unit nat (fun o => o) Sample.url_Parse_Scheme
           StorageSample.backend_call StorageSample.reg0 "mem" 2%nat 1%nat
           (Storage.List string unit "mem://bucket/a") eq_refl) as H.
  simpl in H. destruct H as (_ & _ & _ & H). exact H.
Defined.

Lemma close_first_error_witness :
  map_to_list StorageSample.reg0 ≡ₚ map_to_list StorageSample.reg0 /\
  NoDup (Storage.storageService_Close nat StorageSample.backend_Close StorageSample.reg0
           (map_to_list StorageSample.reg0)).2 /\
  (Storage.storageService_Close nat StorageSample.backend_Close StorageSample.reg0
     (map_to_list StorageSample.reg0)).1 <> None.
Proof.
  pose proof (close_first_error nat StorageSample.backend_Close StorageSample.reg0
                (map_to_list StorageSample.reg0) (reflexivity _)) as H.
  destruct (Storage.storageService_Close nat StorageSample.backend_Close StorageSample.reg0
              (map_to_list StorageSample.reg0)) as [err closed] eqn:E.
  destruct H as (Hnd & _ & Hiff & _).
  split; [reflexivity |]. split; [exact Hnd |]. simpl. rewrite Hiff.
  intros Hall. specialize (Hall "mem"%string 2%nat eq_refl). discriminate Hall.
Defined.

(* ===================================================================== *)
(** * Further properties of the providers and the storage package *)




Lemma wrap64_mod (x : Z) : wrap64 x mod 2^64 = x mod 2^64.
Proof.
  unfold wrap64. rewrite Zminus_mod_idemp_l. f_equal. ring.
Qed.

Lemma wrap64_congr (x y : Z) : x mod 2^64 = y mod 2^64 -> wrap64 x = wrap64 y.
Proof.
  intros H. unfold wrap64. f_equal. rewrite Zplus_mod, H, <- Zplus_mod. reflexivity.
Qed.

Lemma wrap64_mul_l (x y : Z) : wrap64 (wrap64 x * y) = wrap64 (x * y).
Proof.
  apply wrap64_congr.
  rewrite <- (Z.mul_mod_idemp_l (wrap64 x)), wrap64_mod, Z.mul_mod_idemp_l by lia.
  reflexivity.
Qed.


Section TimeDiffMore.
Variable AsString : value -> string.
Variable AsInt : value -> Z.
Variable AsTime : value -> string -> option time.



(** X: [amount] weeks is the same request as [7 * amount] days (the int
    product wrapped as Go computes it), for every base, format and
    further arguments. *)
Theorem timeDiff_week_is_seven_days
    (HS : forall s, AsString (VString s) = s) (HI : forall z, AsInt (VInt z) = z)
    (now : time) (base : value) (amount : Z) (rest : list value) :
  timeDiffProvider_Get AsString AsInt AsTime now (base :: VInt amount :: VString "week" :: rest) =
  timeDiffProvider_Get AsString AsInt AsTime now
    (base :: VInt (wrap64 (7 * amount)) :: VString "day" :: rest).
Proof.
  unfold timeDiffProvider_Get. rewrite !HS, !HI. simpl.
  rewrite !wrap64_mul_l, <- !Z.mul_assoc, !wrap64_mul_l.
  replace (amount * 24 * (7 * Hour)) with (7 * amount * (24 * Hour)) by ring.
  reflexivity.
Qed.
End TimeDiffMore.

Section CastMore.
Variable AsString : value -> string.
Variable AsInt : value -> Z.
Variable AsFloat : value -> Z.
Variable AsBoolean : value -> bool.
Variable ParseTime : string -> string -> time + string.

(** X: a "time" cast with exactly a value and a pattern returns what
    [ParseTime(value, pattern)] yields, its error wrapped; with any other
    number of further arguments (at least one) it fails with an
    argument-count error and does not parse. *)
Theorem cast_time_contract (a1 a2 : value) :
  castedValueProvider_Get AsString AsInt AsFloat AsBoolean ParseTime [VString "time"; a1; a2] =
    match ParseTime (AsString a1) (AsString a2) with
    | inl t => GoRet (VTime t) None
    | inr e => GoRet VNil (Some ("failed to cast to time " ++ AsString a1 ++ " due to " ++ e)%string)
    end /\
  (forall rest, length rest <> 1%nat ->
    castedValueProvider_Get AsString AsInt AsFloat AsBoolean ParseTime (VString "time" :: a1 :: rest) =
    GoRet VNil (Some ("failed to cast to time due to invalid number of arguments expected 2, but had "
                      ++ pretty (S (length rest)))%string)).
Proof.
  split; [reflexivity |].
  intros rest Hlen. destruct rest as [| x [| y rest]]; simpl in Hlen.
  - reflexivity.
  - lia.
  - reflexivity.
Qed.

End CastMore.


(** X: [MapDictionary]'s [Exists] and [Get] agree: a key exists exactly
    when [Get] returns no error, and then [Get] returns the stored value. *)
Theorem MapDictionary_exists_get (d : gmap string value) (name : string) :
  (Dictionary_Exists (MapDictionary d) name = true <-> (Dictionary_Get (MapDictionary d) name).2 = None) /\
  (forall v, d !! name = Some v -> Dictionary_Get (MapDictionary d) name = (v, None)).
Proof.
  simpl. split.
  - rewrite bool_decide_eq_true. destruct (d !! name); simpl; split; intros H;
      [reflexivity | eauto | by destruct H | discriminate].
  - intros v ->. reflexivity.
Qed.

(** X: when the context holds a [MapDictionary] whose map has [v] under
    the key named by the first argument, the dictionary provider returns
    [v] without error, whatever the number of arguments. *)
Theorem dictionary_present_key (AsString : value -> string) (contentKey : string)
    (context : Context) (d : gmap string value) (a0 : value) (rest : list value) (v : value)
    (Hctx : context !! contentKey = Some (MapDictionary d))
    (Hkey : d !! AsString a0 = Some v) :
  dictionaryProvider_Get AsString contentKey context (a0 :: rest) = GoRet v None.
Proof.
  unfold dictionaryProvider_Get. rewrite Hctx. simpl. rewrite Hkey. simpl.
  by destruct (length rest =? 0)%nat.
Qed.

Section StorageMore.
Variable Object Reader Backend : Type.
Variable Object_URL : Object -> string.
Variable url_Parse_Scheme : string -> string + string.
Variable backend_call : Backend -> Storage.op Object Reader -> Storage.res Object Reader.

Abbreviation call := (Storage.storageService_call Object Reader Backend Object_URL url_Parse_Scheme backend_call).
Abbreviation URL_of := (Storage.op_URL Object Reader Object_URL).

(** X: when the operation's URL does not parse, the facade returns the
    parse error (with the operation's zero value) and calls no backend. *)
Theorem facade_parse_error (reg : gmap string Backend) (o : Storage.op Object Reader)
    (err : string) (Hparse : url_Parse_Scheme (URL_of o) = inl err) :
  call reg o = (Storage.lookup_failure Object Reader o err, []).
Proof.
  unfold Storage.storageService_call, Storage.getServiceForSchema. by rewrite Hparse.
Qed.

(** X: registering a backend for scheme [s] does not change how any
    operation whose URL has another scheme, or does not parse, is
    handled. *)
Theorem register_keeps_other_schemes (reg : gmap string Backend) (s : string) (b : Backend)
    (o : Storage.op Object Reader) (Hother : url_Parse_Scheme (URL_of o) <> inr s) :
  call (Storage.storageService_Register Backend s b reg).1 o = call reg o.
Proof.
  unfold Storage.storageService_call, Storage.getServiceForSchema. simpl.
  destruct (url_Parse_Scheme (URL_of o)) as [e | scheme]; [reflexivity |].
  rewrite lookup_insert_ne; [reflexivity |]. congruence.
Qed.

Variable fileStorageService memoryService : Backend.
Variable provider_for : string -> option (string -> Backend + string).

Abbreviation NewService := (StorageCtor.NewService Backend fileStorageService memoryService).
Abbreviation NewServiceForURL :=
  (StorageCtor.NewServiceForURL Backend url_Parse_Scheme fileStorageService memoryService provider_for).

(** X: a new service routes scheme "file" to the file backend, "mem" to
    the memory backend, and fails the lookup for every other scheme. *)
Theorem NewService_routes (URL scheme : string) (Hparse : url_Parse_Scheme URL = inr scheme) :
  Storage.getServiceForSchema Backend url_Parse_Scheme NewService URL =
    if String.eqb scheme "file" then inr fileStorageService
    else if String.eqb scheme "mem" then inr memoryService
    else inl ("failed to lookup url schema " ++ scheme ++ " in " ++ URL)%string.
Proof.
  unfold Storage.getServiceForSchema. rewrite Hparse.
  unfold StorageCtor.NewService. simpl.
  destruct (String.eqb_spec scheme "file") as [-> | Hf]; [reflexivity |].
  destruct (String.eqb_spec scheme "mem") as [-> | Hm].
  - by rewrite lookup_insert_eq.
  - rewrite lookup_insert_ne by congruence. rewrite lookup_insert_ne by congruence.
    by rewrite lookup_empty.
Qed.

(** X: [NewServiceForURL] for a URL with scheme [scheme]: without a
    provider factory it fails with "unsupported scheme" unless the scheme
    is "file" (so also for "mem", which the bare service supports), and
    then returns the bare service; with a factory, a factory error is
    returned wrapped, and a backend [b] from the factory is registered for
    the scheme over the bare service's registry. *)
Theorem NewServiceForURL_outcomes (URL credentialFile scheme : string)
    (Hparse : url_Parse_Scheme URL = inr scheme) :
  (provider_for scheme = None ->
     NewServiceForURL URL credentialFile =
       if String.eqb scheme "file" then inr NewService
       else inl ("unsupported scheme " ++ URL)%string) /\
  (forall provider err, provider_for scheme = Some provider -> provider credentialFile = inr err ->
     NewServiceForURL URL credentialFile =
       inl ("failed to get storage for url " ++ URL ++ ": " ++ err)%string) /\
  (forall provider b, provider_for scheme = Some provider -> provider credentialFile = inl b ->
     NewServiceForURL URL credentialFile = inr (<[scheme := b]> NewService) /\
     Storage.getServiceForSchema Backend url_Parse_Scheme (<[scheme := b]> NewService) URL = inr b).
Proof.
  unfold StorageCtor.NewServiceForURL. rewrite Hparse. split; [| split].
  - intros Hp. rewrite Hp. by destruct (String.eqb scheme "file").
  - intros provider err Hp He. by rewrite Hp, He.
  - intros provider b Hp Hb. rewrite Hp, Hb. split; [reflexivity |].
    unfold Storage.getServiceForSchema. rewrite Hparse. by rewrite lookup_insert_eq.
Qed.
End StorageMore.

(* ===================================================================== *)
(** ** Runs of the further properties at concrete inputs *)



Lemma timeDiff_week_is_seven_days_witness :
  timeDiffProvider_Get Sample.AsString Sample.AsInt Sample.AsTime t_2017_11_04
    [VString "now"; VInt (-1); VString "week"; VString "unix"] =
  timeDiffProvider_Get Sample.AsString Sample.AsInt Sample.AsTime t_2017_11_04
    [VString "now"; VInt (-7); VString "day"; VString "unix"].
Proof.
  apply (timeDiff_week_is_seven_days Sample.AsString Sample.AsInt Sample.AsTime);
    intros; reflexivity.
Defined.

Lemma cast_time_contract_witness :
  castedValueProvider_Get Sample.AsString Sample.AsInt Sample.AsFloat Sample.AsBoolean
    Sample.ParseTime [VString "time"; VString "2020-01-01"] =
  GoRet VNil (Some "failed to cast to time due to invalid number of arguments expected 2, but had 1"%string).
Proof.
  apply (cast_time_contract Sample.AsString Sample.AsInt Sample.AsFloat Sample.AsBoolean
           Sample.ParseTime (VString "2020-01-01") VNil).
  simpl. lia.
Defined.



Lemma MapDictionary_exists_get_witness :
  Dictionary_Get (MapDictionary {[ "a"%string := VInt 1 ]}) "a" = (VInt 1, None).
Proof.
  apply (MapDictionary_exists_get {[ "a"%string := VInt 1 ]} "a"). reflexivity.
Defined.

Lemma dictionary_present_key_witness :
  dictionaryProvider_Get Sample.AsString "dict"
    {[ "dict"%string := MapDictionary {[ "a"%string := VInt 1 ]} ]} [VString "a"; VString "x"] =
  GoRet (VInt 1) None.
Proof.
  apply (dictionary_present_key Sample.AsString "dict"
           {[ "dict"%string := MapDictionary {[ "a"%string := VInt 1 ]} ]}
           {[ "a"%string := VInt 1 ]}); reflexivity.
Defined.

Module CtorSample.
(** A factory for "s3" that needs a credential file. *)
Definition provider_for (scheme : string) : option (string -> nat + string) :=
  if String.eqb scheme "s3" then
    Some (fun cred => if String.eqb cred "" then inr "no credentials"%string else inl 3%nat)
  else None.
End CtorSample.

Lemma facade_parse_error_witness :
  Storage.storageService_call string unit nat (fun o => o) Sample.url_Parse_Scheme
    StorageSample.backend_call StorageSample.reg0 (Storage.List string unit ":bad") =
  (Storage.RList string unit [] (Some "missing protocol scheme"%string), []).
Proof.
  apply (facade_parse_error string unit nat (fun o => o) Sample.url_Parse_Scheme
           StorageSample.backend_call StorageSample.reg0 (Storage.List string unit ":bad")).
  reflexivity.
Defined.

Lemma register_keeps_other_schemes_witness :
  Storage.storageService_call string unit nat (fun o => o) Sample.url_Parse_Scheme
    StorageSample.backend_call (Storage.storageService_Register nat "s3" 3%nat StorageSample.reg0).1
    (Storage.Exists string unit "file:///tmp/a") =
  Storage.storageService_call string unit nat (fun o => o) Sample.url_Parse_Scheme
    StorageSample.backend_call StorageSample.reg0 (Storage.Exists string unit "file:///tmp/a").
Proof.
  apply (register_keeps_other_schemes string unit nat (fun o => o) Sample.url_Parse_Scheme
           StorageSample.backend_call StorageSample.reg0 "s3" 3%nat).
  discriminate.
Defined.

Lemma NewService_routes_witness :
  Storage.getServiceForSchema nat Sample.url_Parse_Scheme
    (StorageCtor.NewService nat 1%nat 2%nat) "gs://bucket/a" =
  inl "failed to lookup url schema gs in gs://bucket/a"%string.
Proof.
  apply (NewService_routes nat Sample.url_Parse_Scheme 1%nat 2%nat "gs://bucket/a" "gs").
  reflexivity.
Defined.

Lemma NewServiceForURL_outcomes_witness :
  StorageCtor.NewServiceForURL nat Sample.url_Parse_Scheme 1%nat 2%nat CtorSample.provider_for
    "mem://bucket/a" "" = inl "unsupported scheme mem://bucket/a"%string /\
  StorageCtor.NewServiceForURL nat Sample.url_Parse_Scheme 1%nat 2%nat CtorSample.provider_for
    "s3://bucket/a" "cred.json" = inr (<["s3"%string := 3%nat]> (StorageCtor.NewService nat 1%nat 2%nat)).
Proof.
  split.
  - apply (NewServiceForURL_outcomes nat Sample.url_Parse_Scheme 1%nat 2%nat
             CtorSample.provider_for "mem://bucket/a" "" "mem"); reflexivity.
  - pose proof (NewServiceForURL_outcomes nat Sample.url_Parse_Scheme 1%nat 2%nat
             CtorSample.provider_for "s3://bucket/a" "cred.json" "s3" eq_refl) as (_ & _ & H).
    apply (H (fun cred => if String.eqb cred "" then inr "no credentials"%string else inl 3%nat));
      reflexivity.
Defined.
